(** * The survey loader [pipeline.py]: fetch, normalise, project, load

    A shallow embedding of the script and the properties of its data-shape
    contract.  The script is one straight sequence of statements; the
    embedding keeps its order and its names.

    Conventions.
    - A Python [str] is a sequence of code points.  The text functions below
      work on [list ascii], one [ascii] per code point, so they cover every
      string over the code points U+0000 .. U+00FF; [str.strip] and
      [str.lower] are given the behaviour CPython has on that range.
    - Column labels and SQL identifiers are [string]s.
    - A [DataFrame] is the list of its column labels and the list of its
      rows, as [pd.read_csv] returns it. *)

From Stdlib Require Import ZArith NArith List Ascii String Lia Bool.
From stdpp Require Import base list strings.
Import ListNotations.

Open Scope string_scope.
Open Scope list_scope.

(** ** Python text primitives *)

Module Py.

Definition code (c : ascii) : N := N_of_ascii c.

(** [str.isspace] on one code point below 256: TAB..CR, FS..US, SPACE,
    NEL and NO-BREAK SPACE. *)
Definition isspace (c : ascii) : bool :=
  let n := code c in
  ((9 <=? n) && (n <=? 13) || (28 <=? n) && (n <=? 32)
   || (n =? 133) || (n =? 160))%N.

(** [str.lower] on one code point below 256: A..Z and the Latin-1 capitals
    (U+00C0 .. U+00DE except the multiplication sign) move up by 32. *)
Definition lower_char (c : ascii) : ascii :=
  let n := code c in
  if ((65 <=? n) && (n <=? 90)
      || (192 <=? n) && (n <=? 222) && negb (n =? 215))%N
  then ascii_of_N (n + 32) else c.

Fixpoint lstrip (s : list ascii) : list ascii :=
  match s with
  | c :: t => if isspace c then lstrip t else s
  | [] => []
  end.

Definition rstrip (s : list ascii) : list ascii := rev (lstrip (rev s)).

Definition strip (s : list ascii) : list ascii := rstrip (lstrip s).

Definition lower (s : list ascii) : list ascii := map lower_char s.

(** [s.replace(old, new)] for a pattern [old] of one character, which is
    what every call of the script passes. *)
Definition replace (old : ascii) (new : list ascii) (s : list ascii)
  : list ascii :=
  flat_map (fun c => if Ascii.eqb c old then new else [c]) s.

(** [sep.join(parts)] *)
Fixpoint join (sep : string) (parts : list string) : string :=
  match parts with
  | [] => ""
  | [p] => p
  | p :: rest => p +:+ sep +:+ join sep rest
  end.

End Py.

Abbreviation chars := list_ascii_of_string (only parsing).

(** ** Step 2: cleaning the column names (lines 44-51) *)

(** The chain applied to one label, in the order the script writes it. *)
Definition clean_chars (s : list ascii) : list ascii :=
  Py.replace "-" (chars "_")
    (Py.replace "&" (chars "and")
       (Py.replace " " (chars "_")
          (Py.lower (Py.strip s)))).

Definition clean_name (h : string) : string :=
  string_of_list_ascii (clean_chars (list_ascii_of_string h)).

(** [df.columns = df.columns.str.strip()....] relabels every column. *)
Definition clean_columns (cols : list string) : list string :=
  clean_name <$> cols.

(** A text that does not start with whitespace. *)
Definition clear_head (s : list ascii) : bool :=
  match s with [] => true | c :: _ => negb (Py.isspace c) end.

(** A text with no whitespace at either end. *)
Definition trimmed (s : list ascii) : Prop :=
  clear_head s = true /\ clear_head (rev s) = true.

(** A character that cleaning leaves alone: not a space, an ampersand or a
    hyphen, and not a capital. *)
Definition plain_char (d : ascii) : bool :=
  negb (Ascii.eqb d " ") && negb (Ascii.eqb d "&") && negb (Ascii.eqb d "-")
  && Ascii.eqb (Py.lower_char d) d.

(** The transform as the specification words it: trim, lowercase, then one
    pass that rewrites each space, ampersand and hyphen. *)
Definition spec_subst (c : ascii) : list ascii :=
  if Ascii.eqb c " " then chars "_"
  else if Ascii.eqb c "&" then chars "and"
  else if Ascii.eqb c "-" then chars "_"
  else [c].

Definition spec_normalize (h : string) : string :=
  string_of_list_ascii
    (flat_map spec_subst
       (map Py.lower_char (Py.strip (list_ascii_of_string h)))).

(** ** pandas values *)

(** What a cell of the frame can hold. *)
Inductive scalar : Type :=
| Text (s : string)
| Integer (z : Z)
| Float (mantissa exponent : Z)
| Boolean (b : bool)
| NaN
| Timestamp (ns : Z)
| NaT.

(** What [Series.get] hands back: a cell, a sub-series when the label occurs
    more than once, or the default [None]. *)
Inductive pyobj : Type :=
| Scalar (v : scalar)
| SubSeries (vs : list scalar)
| PyNone.

Record DataFrame : Type := {
  columns : list string;
  rows : list (list scalar)
}.

(** Positions of a label among the columns. *)
Fixpoint get_loc (label : string) (cols : list string) : list nat :=
  match cols with
  | [] => []
  | c :: t =>
      (if decide (c = label) then [0%nat] else []) ++ (S <$> get_loc label t)
  end.

(** The values of the column at position [j]; a row too short for it reads
    as missing. *)
Definition column_at (j : nat) (df : DataFrame) : list scalar :=
  (fun r => default NaN (r !! j)) <$> rows df.

(** [row.get(key)] for a row of a frame with labels [cols]. *)
Definition series_get (cols : list string) (row : list scalar) (key : string)
  : pyobj :=
  match filter (fun p => p.1 = key) (zip cols row) with
  | [] => PyNone
  | [p] => Scalar p.2
  | ps => SubSeries ps.*2
  end.

(** ** The run: errors, effects, and the script monad *)

Inductive exn : Type :=
| FetchFailed (status : Z)     (* line 35 *)
| ValueError                   (* pd.to_datetime on a duplicated label *)
| NoExpectedColumns            (* line 130 *)
| KeyError                     (* COLUMN_MAP[col] *)
| IndexError                   (* df.iloc[0] on an empty frame *)
| DatabaseError.               (* execute_batch refused by the server *)

Inductive statement : Type :=
| CreateSchema
| DropTable
| CreateTable
| InsertInto (cols : list string) (nparams : nat).

(** The effects a run performs on the outside world, in order. *)
Inductive event : Type :=
| HttpGet
| Connect
| Execute (s : statement)
| ExecuteBatch (s : statement) (argslist : list (list pyobj))
| Commit
| Close.

(** A script step: the effects performed so far and either the exception
    that stopped it or its value. *)
Definition Script (A : Type) : Type := (list event * (exn + A))%type.

Definition raise {A} (e : exn) : Script A := ([], inl e).

Definition emit (ev : event) : Script unit := ([ev], inr tt).

Definition lift {A} (r : exn + A) : Script A := ([], r).

#[global] Instance script_ret : MRet Script := fun A a => ([], inr a).

#[global] Instance script_bind : MBind Script := fun A B k m =>
  match m with
  | (t, inl e) => (t, inl e)
  | (t, inr a) => let '(t', r) := k a in (t ++ t', r)
  end.

Definition trace {A} (m : Script A) : list event := m.1.

Definition outcome {A} (m : Script A) : exn + A := m.2.

(** ** Configuration (lines 26-27, 109-125) *)

Definition schema_name : string := "mental_health".
Definition table_name : string := "mental_health_wellbeing".

(** The dictionary literal, in the order it is written. *)
Definition COLUMN_MAP : list (string * string) :=
  [ ("start", "start_time");
    ("end", "end_time");
    ("age_range", "age_range");
    ("gender", "gender");
    ("location", "location");
    ("stressed_or_overwhelmed", "stressed_or_overwhelmed");
    ("source_of_stress", "source_of_stress");
    ("mental_health_issue_experienced", "mental_health_issue_experienced");
    ("rate_your_current_mental_health", "rate_your_current_mental_health");
    ("cope_with_stress_or_emotional_challenges",
     "cope_with_stress_or_emotional_challenges");
    ("met_mental_health_professional", "Met_mental_health_professional");
    ("seeking_support", "seeking_support");
    ("interested_in_attending_therapy_sessions",
     "interested_in_attending_therapy_sessions");
    ("joining_mental_health_support_group",
     "joining_mental_health_support_group");
    ("mental_health_support_you_need", "mental_health_support_you_need") ].

(** [COLUMN_MAP.keys()] *)
Definition keys (m : list (string * string)) : list string := m.*1.

(** [m[col]]; [None] stands for the [KeyError]. *)
Fixpoint getitem (m : list (string * string)) (col : string) : option string :=
  match m with
  | [] => None
  | (k, v) :: t => if decide (k = col) then Some v else getitem t col
  end.

(** ** Step 5: the projection (line 128) *)

Definition existing_columns (cols : list string) : list string :=
  filter (fun col => col ∈ cols) (keys COLUMN_MAP).

(** The entries of the mapping whose source column was fetched, in the
    order of the dictionary literal. *)
Definition entries (cols : list string) : list (string * string) :=
  filter (fun p => p.1 ∈ cols) COLUMN_MAP.

(** ** Step 6: the insert statement (lines 138-141) *)

Definition nl : string := String "010" "".

(** [[COLUMN_MAP[col] for col in existing_columns]] *)
Definition dest_columns (existing : list string) : option (list string) :=
  mapM (getitem COLUMN_MAP) existing.

(** The text of the statement for a given destination column list and
    parameter count. *)
Definition insert_text (dest : list string) (n : nat) : string :=
  nl +:+ "    INSERT INTO " +:+ schema_name +:+ "." +:+ table_name +:+ " ("
     +:+ Py.join ", " dest +:+ ")" +:+
  nl +:+ "    VALUES (" +:+ Py.join ", " (replicate n "%s") +:+ ")" +:+
  nl.

Definition insert_stmt (existing : list string) : option statement :=
  dest ← dest_columns existing;
  Some (InsertInto dest (length existing)).

(** The columns of the table the script creates (lines 86-101). *)
Definition table_columns : list (string * string) :=
  [ ("id", "SERIAL PRIMARY KEY");
    ("start_time", "TIMESTAMP");
    ("end_time", "TIMESTAMP");
    ("age_range", "TEXT");
    ("gender", "TEXT");
    ("location", "TEXT");
    ("stressed_or_overwhelmed", "TEXT");
    ("source_of_stress", "TEXT");
    ("mental_health_issue_experienced", "TEXT");
    ("rate_your_current_mental_health", "TEXT");
    ("cope_with_stress_or_emotional_challenges", "TEXT");
    ("Met_mental_health_professional", "TEXT");
    ("seeking_support", "TEXT");
    ("interested_in_attending_therapy_sessions", "TEXT");
    ("joining_mental_health_support_group", "TEXT");
    ("mental_health_support_you_need", "TEXT") ].

(** The text sent to the server for each statement (lines 82-103, 138-141). *)
Definition sql (s : statement) : string :=
  match s with
  | CreateSchema => "CREATE SCHEMA IF NOT EXISTS " +:+ schema_name +:+ ";"
  | DropTable =>
      "DROP TABLE IF EXISTS " +:+ schema_name +:+ "." +:+ table_name +:+ ";"
  | CreateTable =>
      nl +:+ "    CREATE TABLE " +:+ schema_name +:+ "." +:+ table_name
         +:+ " (" +:+
      nl +:+ Py.join ("," +:+ nl)
               ((fun p => "        " +:+ p.1 +:+ " " +:+ p.2)
                  <$> table_columns) +:+
      nl +:+ "    );" +:+
      nl
  | InsertInto dest n => insert_text dest n
  end.

Definition insert_query (existing : list string) : option string :=
  sql <$> insert_stmt existing.

(** Number of [%s] markers in a statement text. *)
Fixpoint count_placeholders (s : string) : nat :=
  match s with
  | EmptyString => 0
  | String c t =>
      match t with
      | String d u =>
          if Ascii.eqb c "%" && Ascii.eqb d "s"
          then S (count_placeholders u) else count_placeholders t
      | EmptyString => 0
      end
  end.

Fixpoint no_percent (s : string) : bool :=
  match s with
  | EmptyString => true
  | String c t => negb (Ascii.eqb c "%") && no_percent t
  end.

(** ** Step 7: the parameter tuples (line 150) *)

(** The comprehension of line 150, over the row series that
    [df.iterrows()] yields: [df] is the frame of those series, each with the
    labels of the frame as its index (see [iterrows] below). *)

Definition values_list (df : DataFrame) (existing : list string)
  : list (list pyobj) :=
  (fun row => series_get (columns df) row <$> existing) <$> rows df.

(** ** The destination database *)

Record Row : Type := { id : Z; cells : list (string * pyobj) }.

Record Table : Type := { next_id : Z; body : list Row }.

Record Database : Type := {
  has_schema : bool;
  wellbeing : option Table     (* mental_health.mental_health_wellbeing *)
}.

(** psycopg2 opens a transaction with the first statement; the work of a
    connection reaches the database at [commit] and is discarded by a
    [close] without one. *)
Record Session : Type := { committed : Database; pending : Database }.

Definition insert_row (cols : list string) (t : Table) (args : list pyobj)
  : Table :=
  {| next_id := next_id t + 1;
     body := body t ++ [ {| id := next_id t; cells := zip cols args |} ] |}.

Definition db_execute (s : statement) (db : Database) : Database :=
  match s with
  | CreateSchema => {| has_schema := true; wellbeing := wellbeing db |}
  | DropTable => {| has_schema := has_schema db; wellbeing := None |}
  | CreateTable =>
      {| has_schema := has_schema db;
         wellbeing := Some {| next_id := 1; body := [] |} |}
  | InsertInto _ _ => db
  end.

Definition db_execute_batch (s : statement) (argslist : list (list pyobj))
  (db : Database) : Database :=
  match s with
  | InsertInto cols _ =>
      {| has_schema := has_schema db;
         wellbeing := (fun t => foldl (insert_row cols) t argslist)
                        <$> wellbeing db |}
  | _ => db
  end.

Definition db_step (ss : Session) (ev : event) : Session :=
  match ev with
  | HttpGet => ss
  | Connect => {| committed := committed ss; pending := committed ss |}
  | Execute s =>
      {| committed := committed ss; pending := db_execute s (pending ss) |}
  | ExecuteBatch s argslist =>
      {| committed := committed ss;
         pending := db_execute_batch s argslist (pending ss) |}
  | Commit => {| committed := pending ss; pending := pending ss |}
  | Close => {| committed := committed ss; pending := committed ss |}
  end.

(** The database once the process is gone: what was committed. *)
Definition final_db (db0 : Database) (t : list event) : Database :=
  committed (foldl db_step {| committed := db0; pending := db0 |} t).

(** ** The script *)

(** What a run meets outside the script. *)
Record World : Type := {
  status_code : Z;                 (* response.status_code *)
  csv : DataFrame;                 (* what pd.read_csv makes of response.text *)
  row_values : DataFrame -> list scalar -> list scalar;
                                   (* the values of the series that
                                      df.iterrows() builds from a row of df *)
  accepts : statement -> list (list pyobj) -> bool
                                   (* does the server take the batch *)
}.

(** [df.iterrows()]: one series per row, in index order.  pandas rebuilds
    each row as a series of one dtype, so a cell can come back widened (an
    integer as a float, a missing value as [NaT]); what it yields for a row
    is library behaviour and is taken from the world. *)
Definition iterrows (w : World) (df : DataFrame) : DataFrame :=
  {| columns := columns df; rows := row_values w df <$> rows df |}.

(** A parameter psycopg2 renders as ['NaT'::timestamp]. *)
Definition is_NaT (v : pyobj) : bool :=
  match v with
  | Scalar NaT => true
  | _ => false
  end.

Section Script.

(** pandas' conversion of one entry of a column to nanoseconds since the
    epoch, given the column it sits in; [None] when it does not parse. *)
Variable parse_datetime : list scalar -> scalar -> option Z.

Definition coerce (col : list scalar) (v : scalar) : scalar :=
  match parse_datetime col v with
  | Some ns => Timestamp ns
  | None => NaT
  end.

(** [pd.to_datetime(series, errors="coerce")] *)
Definition to_datetime (col : list scalar) : list scalar :=
  coerce col <$> col.

(** [df[label] = series] for the column at position [j]: row by row, the
    new value takes the place of the old one. *)
Definition setitem (j : nat) (series : list scalar) (df : DataFrame)
  : DataFrame :=
  {| columns := columns df;
     rows := zip_with (fun row v => <[j := v]> row) (rows df) series |}.

(** [if label in df.columns: df[label] = pd.to_datetime(df[label],
    errors="coerce")] (lines 63-66).  With the label on several columns
    [df[label]] is a frame and [pd.to_datetime] raises.  (A pandas that
    refuses a column mixing UTC offsets raises there too; the parser carries
    no offset, and that path is not followed here.) *)
Definition convert_timestamp (label : string) (df : DataFrame)
  : exn + DataFrame :=
  if decide (label ∈ columns df) then
    match get_loc label (columns df) with
    | [j] => inr (setitem j (to_datetime (column_at j df)) df)
    | _ => inl ValueError
    end
  else inr df.

Definition fetch (w : World) : Script unit :=
  emit HttpGet ;;
  if decide (status_code w ≠ 200%Z)
  then raise (FetchFailed (status_code w))
  else mret tt.

Definition load_csv (w : World) : DataFrame :=
  {| columns := clean_columns (columns (csv w)); rows := rows (csv w) |}.

Definition provision : Script unit :=
  emit Connect ;;
  emit (Execute CreateSchema) ;;
  emit (Execute DropTable) ;;
  emit (Execute CreateTable).

(** [df.iloc[0]] for the preview of line 145. *)
Definition iloc0 (df : DataFrame) : exn + list scalar :=
  match rows df with
  | r :: _ => inr r
  | [] => inl IndexError
  end.

(** [execute_batch(cur, insert_query, values_list)].  PostgreSQL rejects the
    literal ['NaT'::timestamp] (a [DataError], which is a [DatabaseError]),
    so a batch holding a [NaT] is always refused; for any other batch the
    answer of the server is taken from the world. *)
Definition execute_batch (w : World) (s : statement)
  (argslist : list (list pyobj)) : Script unit :=
  if existsb (existsb is_NaT) argslist then raise DatabaseError
  else if accepts w s argslist then emit (ExecuteBatch s argslist)
  else raise DatabaseError.

(** The script, top to bottom.  A run is followed from the response on: the
    body is one [pd.read_csv] can read, the server is reached and takes the
    three schema statements; the failures of those library calls are not
    part of the model. *)
Definition pipeline (w : World) : Script unit :=
  fetch w ;;
  let df := load_csv w in
  df ← lift (convert_timestamp "start" df);
  df ← lift (convert_timestamp "end" df);
  provision ;;
  let existing := existing_columns (columns df) in
  (if decide (length existing = 0%nat)
   then raise NoExpectedColumns else mret tt) ;;
  query ← lift (from_option inr (inl KeyError) (insert_stmt existing));
  _ ← lift (iloc0 df);
  let values := values_list (iterrows w df) existing in
  (if decide (length values = 0%nat)
   then mret tt
   else (execute_batch w query values ;; emit Commit)) ;;
  emit Close.

(** Does the column at position [k] carry one of the labels? *)
Definition labelled (labels cols : list string) (k : nat) : bool :=
  match cols !! k with
  | Some l => bool_decide (l ∈ labels)
  | None => false
  end.

(** The frame the specification asks of the timestamp step: the cells
    under the given labels converted, every other cell as it was. *)
Definition spec_timestamps (labels : list string) (df : DataFrame)
  : DataFrame :=
  {| columns := columns df;
     rows := imap (fun k v =>
               if labelled labels (columns df) k
               then coerce (column_at k df) v else v) <$> rows df |}.

End Script.

(** What every run that reached the projection has done so far. *)
Definition provisioned : list event :=
  [HttpGet; Connect; Execute CreateSchema; Execute DropTable;
   Execute CreateTable].

(** The table a successful load leaves: one row per tuple, keyed from 1. *)
Definition loaded (dest : list string) (argslist : list (list pyobj))
  : Table :=
  {| next_id := 1 + Z.of_nat (length argslist);
     body := imap (fun i args =>
               {| id := 1 + Z.of_nat i; cells := zip dest args |}) argslist |}.

Definition is_fetch (ev : event) : bool :=
  match ev with HttpGet => true | _ => false end.

Definition touches_database (ev : event) : bool :=
  match ev with HttpGet => false | _ => true end.

(** ** An ISO 8601 reader, the fragment of the pandas parser the worked
    example needs: [YYYY-MM-DDTHH:MM:SS], read as UTC. *)

Definition digit (c : ascii) : option Z :=
  let n := N_of_ascii c in
  if ((48 <=? n) && (n <=? 57))%N then Some (Z.of_N n - 48)%Z else None.

Fixpoint number (acc : Z) (s : list ascii) : option Z :=
  match s with
  | [] => Some acc
  | c :: t => d ← digit c; number (10 * acc + d)%Z t
  end.

(** Days from 1970-01-01 to a date of the proleptic Gregorian calendar. *)
Definition days_from_civil (y m d : Z) : Z :=
  let y := (if m <=? 2 then y - 1 else y)%Z in
  let era := (y / 400)%Z in
  let yoe := (y - era * 400)%Z in
  let doy := ((153 * (if m >? 2 then m - 3 else m + 9) + 2) / 5 + d - 1)%Z in
  let doe := (yoe * 365 + yoe / 4 - yoe / 100 + doy)%Z in
  (era * 146097 + doe - 719468)%Z.

Definition iso8601 (_ : list scalar) (v : scalar) : option Z :=
  match v with
  | Text s =>
      match chars s with
      | [y1; y2; y3; y4; d1; mo1; mo2; d2; da1; da2; t;
         h1; h2; c1; mi1; mi2; c2; s1; s2] =>
          if Ascii.eqb d1 "-" && Ascii.eqb d2 "-" && Ascii.eqb t "T"
             && Ascii.eqb c1 ":" && Ascii.eqb c2 ":"
          then
            y ← number 0 [y1; y2; y3; y4];
            mo ← number 0 [mo1; mo2];
            da ← number 0 [da1; da2];
            h ← number 0 [h1; h2];
            mi ← number 0 [mi1; mi2];
            se ← number 0 [s1; s2];
            if ((1 <=? mo) && (mo <=? 12) && (1 <=? da) && (da <=? 31)
                && (h <=? 23) && (mi <=? 59) && (se <=? 59))%Z
            then Some ((((days_from_civil y mo da * 24 + h) * 60 + mi) * 60
                        + se) * 1000000000)%Z
            else None
          else None
      | _ => None
      end
  | _ => None
  end.

(** ** Sample runs *)

Definition always : statement -> list (list pyobj) -> bool := fun _ _ => true.

(** [iterrows] on a frame whose rows come back as they are: rows holding
    text are object series, rows of timestamps alone are datetime series. *)
Definition as_read : DataFrame -> list scalar -> list scalar :=
  fun _ row => row.

(** The worked example of the specification: one response. *)
Definition example_frame : DataFrame :=
  {| columns := ["Start"; "End"; "Age Range"; "Gender"];
     rows := [[Text "2023-01-01T10:00:00"; Text "2023-01-01T10:30:00";
               Text "18-24"; Text "Female"]] |}.

Definition example_world : World :=
  {| status_code := 200; csv := example_frame; row_values := as_read;
     accepts := always |}.

(** An export holding the header line and nothing else. *)
Definition header_only : DataFrame :=
  {| columns := ["Start"; "End"; "Age Range"; "Gender"]; rows := [] |}.

Definition header_only_world : World :=
  {| status_code := 200; csv := header_only; row_values := as_read;
     accepts := always |}.

(** An export none of whose columns the mapping knows. *)
Definition unmapped_world : World :=
  {| status_code := 200;
     csv := {| columns := ["_id"; "_uuid"]; rows := [[Integer 1; Text "a"]] |};
     row_values := as_read;
     accepts := always |}.

(** A request the server turns down. *)
Definition refused_world : World :=
  {| status_code := 401; csv := example_frame; row_values := as_read;
     accepts := always |}.

(** An export whose first start value is not a date. *)
Definition unparseable_world : World :=
  {| status_code := 200;
     csv := {| columns := ["Start"; "End"; "Age Range"; "Gender"];
               rows := [[Text "not a date"; Text "2023-01-01T10:30:00";
                         Text "18-24"; Text "Female"]] |};
     row_values := as_read;
     accepts := always |}.

(** A database in which nothing has been created yet. *)
Definition empty_db : Database := {| has_schema := false; wellbeing := None |}.

(** Case analysis over the 256 code points. *)
Ltac each_char c :=
  destruct c as [[] [] [] [] [] [] [] []]; vm_compute; try reflexivity.

(** * Properties *)

(** ** Text *)

Lemma isspace_lower c : Py.isspace (Py.lower_char c) = Py.isspace c.
Proof. each_char c. Qed.

Lemma lower_char_idem c : Py.lower_char (Py.lower_char c) = Py.lower_char c.
Proof. each_char c. Qed.

Lemma replace_app old new a b :
  Py.replace old new (a ++ b) = Py.replace old new a ++ Py.replace old new b.
Proof. apply flat_map_app. Qed.

Lemma chain_char c :
  Py.replace "-" (chars "_")
    (Py.replace "&" (chars "and") (Py.replace " " (chars "_") [c]))
  = spec_subst c.
Proof. each_char c. Qed.

Lemma chain_is_subst s :
  Py.replace "-" (chars "_")
    (Py.replace "&" (chars "and") (Py.replace " " (chars "_") s))
  = flat_map spec_subst s.
Proof.
  induction s as [|c t IH]; [reflexivity|].
  change (c :: t) with ([c] ++ t).
  rewrite !replace_app, IH. rewrite chain_char. reflexivity.
Qed.

Lemma clean_chars_spec s :
  clean_chars s = flat_map spec_subst (map Py.lower_char (Py.strip s)).
Proof. unfold clean_chars. apply chain_is_subst. Qed.

Lemma lstrip_clear s : clear_head s = true -> Py.lstrip s = s.
Proof. destruct s as [|c t]; simpl; [done|]. by destruct (Py.isspace c). Qed.

Lemma clear_head_lstrip s : clear_head (Py.lstrip s) = true.
Proof.
  induction s as [|c t IH]; simpl; [done|].
  destruct (Py.isspace c) eqn:E; [done|]. simpl. by rewrite E.
Qed.

Lemma lstrip_snoc s c :
  Py.isspace c = false -> Py.lstrip (s ++ [c]) = Py.lstrip s ++ [c].
Proof.
  intros Hc. induction s as [|d t IH]; simpl.
  - by rewrite Hc.
  - destruct (Py.isspace d); [exact IH | reflexivity].
Qed.

Lemma clear_head_rstrip s : clear_head s = true -> clear_head (Py.rstrip s) = true.
Proof.
  unfold Py.rstrip. destruct s as [|c t]; [done|]. simpl. intros Hc.
  apply negb_true_iff in Hc. rewrite lstrip_snoc by done.
  rewrite rev_app_distr. simpl. by rewrite Hc.
Qed.

Lemma strip_trimmed s : trimmed (Py.strip s).
Proof.
  split.
  - apply clear_head_rstrip, clear_head_lstrip.
  - unfold Py.strip, Py.rstrip. rewrite rev_involutive. apply clear_head_lstrip.
Qed.

Lemma trimmed_strip s : trimmed s -> Py.strip s = s.
Proof.
  intros [H1 H2]. unfold Py.strip, Py.rstrip.
  rewrite (lstrip_clear s H1), (lstrip_clear _ H2). apply rev_involutive.
Qed.

Lemma clear_head_map_lower s : clear_head (map Py.lower_char s) = clear_head s.
Proof. destruct s; simpl; [done|]. by rewrite isspace_lower. Qed.


Lemma clear_head_flat_map (f : ascii -> list ascii) s :
  (forall c, Py.isspace c = false -> clear_head (f c) = true /\ f c <> []) ->
  clear_head s = true -> clear_head (flat_map f s) = true.
Proof.
  intros Hf. destruct s as [|c t]; simpl; [done|].
  intros Hc. apply negb_true_iff in Hc. destruct (Hf c Hc) as [H1 H2].
  destruct (f c); [done|]. exact H1.
Qed.

Lemma subst_head c :
  Py.isspace c = false ->
  clear_head (spec_subst c) = true /\ spec_subst c <> [].
Proof. each_char c; intros; done. Qed.

Lemma subst_last c :
  Py.isspace c = false ->
  clear_head (rev (spec_subst c)) = true /\ rev (spec_subst c) <> [].
Proof. each_char c; intros; done. Qed.

Lemma rev_flat_map {A B} (f : A -> list B) s :
  rev (flat_map f s) = flat_map (fun c => rev (f c)) (rev s).
Proof.
  induction s as [|c t IH]; simpl; [done|].
  rewrite rev_app_distr, IH, flat_map_app. simpl. by rewrite app_nil_r.
Qed.

Lemma trimmed_lower s : trimmed s -> trimmed (map Py.lower_char s).
Proof.
  intros [H1 H2]. split.
  - by rewrite clear_head_map_lower.
  - by rewrite <- map_rev, clear_head_map_lower.
Qed.

Lemma trimmed_subst s : trimmed s -> trimmed (flat_map spec_subst s).
Proof.
  intros [H1 H2]. split.
  - by apply clear_head_flat_map; [apply subst_head|].
  - rewrite rev_flat_map. by apply clear_head_flat_map; [apply subst_last|].
Qed.

Lemma lower_subst_lower c :
  map Py.lower_char (spec_subst (Py.lower_char c))
  = spec_subst (Py.lower_char c).
Proof. each_char c. Qed.

Lemma subst_subst c : flat_map spec_subst (spec_subst c) = spec_subst c.
Proof. each_char c. Qed.

Lemma lower_fixes_normal s :
  map Py.lower_char (flat_map spec_subst (map Py.lower_char s))
  = flat_map spec_subst (map Py.lower_char s).
Proof.
  induction s as [|c t IH]; simpl; [done|].
  by rewrite map_app, lower_subst_lower, IH.
Qed.

Lemma subst_fixes_normal s :
  flat_map spec_subst (flat_map spec_subst s) = flat_map spec_subst s.
Proof.
  induction s as [|c t IH]; simpl; [done|].
  by rewrite flat_map_app, subst_subst, IH.
Qed.

Lemma clean_chars_idem s : clean_chars (clean_chars s) = clean_chars s.
Proof.
  rewrite !clean_chars_spec.
  rewrite (trimmed_strip (flat_map _ _)).
  - by rewrite lower_fixes_normal, subst_fixes_normal.
  - apply trimmed_subst, trimmed_lower, strip_trimmed.
Qed.



(** ** The projection and the statement *)

Section Dict.
Variable m : list (string * string).
Hypothesis keys_unique : NoDup (keys m).

Lemma getitem_elem k v : (k, v) ∈ m -> getitem m k = Some v.
Proof.
  clear -keys_unique. unfold keys in keys_unique.
  induction m as [|[k' v'] t IH]; intros Hin; [by apply elem_of_nil in Hin|].
  apply NoDup_cons in keys_unique as [Hk Ht]. simpl.
  apply elem_of_cons in Hin as [Heq|Hin].
  - injection Heq as -> ->. by rewrite decide_True.
  - rewrite decide_False; [by apply IH|].
    intros ->. apply Hk. apply list_elem_of_fmap. by exists (k, v).
Qed.

Lemma getitem_entries (sub : list (string * string)) :
  sub ⊆ m -> mapM (getitem m) sub.*1 = Some sub.*2.
Proof.
  intros Hsub. apply mapM_Some. induction sub as [|[k v] t IH]; simpl.
  - constructor.
  - constructor.
    + apply getitem_elem, Hsub. by left.
    + apply IH. intros x Hx. apply Hsub. by right.
Qed.
End Dict.

Lemma filter_keys (P : string -> Prop) `{!forall k, Decision (P k)}
  (m : list (string * string)) :
  filter P (keys m) = (filter (fun p => P p.1) m).*1.
Proof.
  unfold keys. induction m as [|[k v] t IH]; [done|].
  rewrite fmap_cons, !filter_cons. simpl. case_decide; simpl; by rewrite IH.
Qed.

Lemma COLUMN_MAP_keys_unique : NoDup (keys COLUMN_MAP).
Proof. apply (bool_decide_unpack _). by vm_compute. Qed.

Lemma existing_columns_entries cols :
  existing_columns cols = (entries cols).*1.
Proof. exact (filter_keys (fun k => k ∈ cols) COLUMN_MAP). Qed.

Lemma dest_columns_entries cols :
  dest_columns (existing_columns cols) = Some (entries cols).*2.
Proof.
  rewrite existing_columns_entries. apply getitem_entries.
  - apply COLUMN_MAP_keys_unique.
  - intros p Hp. by apply list_elem_of_filter in Hp as [_ Hp].
Qed.

Lemma append_cons x (a b : string) : String x a +:+ b = String x (a +:+ b).
Proof. reflexivity. Qed.

Lemma append_assoc (a b c : string) : (a +:+ b) +:+ c = a +:+ (b +:+ c).
Proof. induction a as [|x a IH]; [done|]. by rewrite !append_cons, IH. Qed.

Lemma no_percent_app a b :
  no_percent (a +:+ b) = no_percent a && no_percent b.
Proof.
  induction a as [|x a IH]; [done|].
  rewrite append_cons. simpl. by rewrite IH, andb_assoc.
Qed.

Lemma count_skip c t :
  Ascii.eqb c "%" = false ->
  count_placeholders (String c t) = count_placeholders t.
Proof. intros Hc. simpl. rewrite Hc. by destruct t. Qed.

Lemma count_no_percent_app a b :
  no_percent a = true ->
  count_placeholders (a +:+ b) = count_placeholders b.
Proof.
  induction a as [|x a IH]; [done|].
  intros [Hx Ha]%andb_true_iff. apply negb_true_iff in Hx.
  rewrite append_cons, count_skip by done. by apply IH.
Qed.

Lemma no_percent_join sep parts :
  no_percent sep = true -> Forall (fun p => no_percent p = true) parts ->
  no_percent (Py.join sep parts) = true.
Proof.
  intros Hsep. induction 1 as [|p t Hp Ht IH]; [done|].
  destruct t as [|q t]; [done|].
  change (Py.join sep (p :: q :: t)) with (p +:+ sep +:+ Py.join sep (q :: t)).
  by rewrite !no_percent_app, Hp, Hsep, IH.
Qed.

Lemma count_no_percent t :
  no_percent t = true -> count_placeholders t = 0.
Proof.
  induction t as [|x t IH]; [done|].
  intros [Hx Ht]%andb_true_iff. apply negb_true_iff in Hx.
  rewrite count_skip by done. by apply IH.
Qed.

Lemma count_marker x :
  count_placeholders ("%s" +:+ x) = S (count_placeholders x).
Proof. reflexivity. Qed.

Lemma count_markers n tail :
  no_percent tail = true ->
  count_placeholders (Py.join ", " (replicate n "%s") +:+ tail) = n.
Proof.
  intros Htail. induction n as [|[|n] IH].
  - by apply count_no_percent.
  - change (count_placeholders ("%s" +:+ tail) = 1).
    by rewrite count_marker, count_no_percent.
  - change (replicate (S (S n)) "%s") with ("%s" :: replicate (S n) "%s").
    change (Py.join ", " ("%s" :: replicate (S n) "%s"))
      with ("%s" +:+ ", " +:+ Py.join ", " (replicate (S n) "%s")).
    rewrite !append_assoc, count_marker.
    f_equal. rewrite (count_no_percent_app ", ") by done. exact IH.
Qed.

Lemma insert_text_markers dest n :
  Forall (fun d => no_percent d = true) dest ->
  count_placeholders (insert_text dest n) = n.
Proof.
  intros Hdest. unfold insert_text.
  rewrite <- !append_assoc.
  rewrite !append_assoc.
  repeat (rewrite count_no_percent_app; [|by (reflexivity || apply no_percent_join)]).
  apply count_markers. reflexivity.
Qed.

Lemma insert_stmt_entries cols :
  insert_stmt (existing_columns cols)
  = Some (InsertInto (entries cols).*2 (length (existing_columns cols))).
Proof. unfold insert_stmt. by rewrite dest_columns_entries. Qed.

(** Every destination name of the mapping is a column of the created
    table. *)
Lemma mapped_columns_exist : Forall (.∈ table_columns.*1) COLUMN_MAP.*2.
Proof. apply (bool_decide_unpack _). by vm_compute. Qed.

Lemma Forall_sublist_lookup_dest cols :
  Forall (fun d => no_percent d = true) (entries cols).*2.
Proof.
  assert (Hall : Forall (fun d => no_percent d = true) COLUMN_MAP.*2).
  { by repeat constructor. }
  rewrite Forall_forall in Hall. apply Forall_forall. intros d Hd.
  apply Hall. eapply elem_of_sublist; [exact Hd|].
  apply fmap_sublist, sublist_filter.
Qed.

(** ** The run *)

Section Run.
Variable parse : list scalar -> scalar -> option Z.

Lemma pipeline_unfold w :
  pipeline parse w =
  if decide (status_code w ≠ 200%Z)
  then ([HttpGet], inl (FetchFailed (status_code w)))
  else
    match convert_timestamp parse "start" (load_csv w) with
    | inl e => ([HttpGet], inl e)
    | inr df1 =>
      match convert_timestamp parse "end" df1 with
      | inl e => ([HttpGet], inl e)
      | inr df =>
        let existing := existing_columns (columns df) in
        if decide (length existing = 0%nat)
        then (provisioned, inl NoExpectedColumns)
        else
          match insert_stmt existing with
          | None => (provisioned, inl KeyError)
          | Some query =>
            match rows df with
            | [] => (provisioned, inl IndexError)
            | _ :: _ =>
              if existsb (existsb is_NaT)
                   (values_list (iterrows w df) existing)
              then (provisioned, inl DatabaseError)
              else if accepts w query (values_list (iterrows w df) existing)
              then (provisioned ++
                      [ExecuteBatch query
                         (values_list (iterrows w df) existing);
                       Commit; Close], inr tt)
              else (provisioned, inl DatabaseError)
            end
          end
      end
    end.
Proof.
  unfold pipeline, fetch, provision, execute_batch, iloc0, provisioned.
  unfold lift, emit, raise, mret, script_ret, mbind, script_bind.
  destruct (decide (status_code w ≠ 200%Z)); [reflexivity|]. cbv beta iota zeta.
  destruct (convert_timestamp parse "start" (load_csv w)) as [e|df1];
    [reflexivity|]. cbv beta iota zeta.
  destruct (convert_timestamp parse "end" df1) as [e|df]; [reflexivity|].
  cbv beta iota zeta.
  destruct (decide (length (existing_columns (columns df)) = 0%nat));
    [reflexivity|]. cbv beta iota zeta.
  destruct (insert_stmt (existing_columns (columns df))) as [q|];
    [|reflexivity]. cbv beta iota zeta.
  unfold values_list, iterrows, from_option. cbn [rows columns].
  destruct (rows df) as [|r rs]; [reflexivity|].
  rewrite !fmap_cons.
  set (vs := _ :: _).
  destruct (decide (length vs = 0%nat)) as [Hlen|_]; [discriminate Hlen|].
  destruct (existsb (existsb is_NaT) vs); [reflexivity|].
  destruct (accepts w q vs); reflexivity.
Qed.

(** positions *)
Lemma get_loc_lookup label cols k :
  k ∈ get_loc label cols ↔ cols !! k = Some label.
Proof.
  revert k. induction cols as [|c t IH]; intros k; simpl.
  - split; [by intros ?%elem_of_nil | done].
  - rewrite elem_of_app, list_elem_of_fmap. split.
    + intros [Hk|(k' & -> & Hk')].
      * destruct (decide (c = label)) as [->|]; [|by apply elem_of_nil in Hk].
        by apply list_elem_of_singleton in Hk as ->.
      * by apply IH.
    + destruct k as [|k]; simpl.
      * intros [= ->]. left. rewrite decide_True by done. by left.
      * intros Hk. right. exists k. split; [done|]. by apply IH.
Qed.

Lemma get_loc_absent label cols : label ∉ cols -> get_loc label cols = [].
Proof.
  intros Hno. destruct (get_loc label cols) as [|k ks] eqn:E; [done|].
  exfalso. apply Hno. assert (Hk : k ∈ get_loc label cols) by (rewrite E; by left).
  apply get_loc_lookup in Hk. by eapply list_elem_of_lookup_2.
Qed.

Lemma get_loc_present label cols : label ∈ cols -> get_loc label cols <> [].
Proof.
  intros [k Hk]%list_elem_of_lookup_1 E. apply get_loc_lookup in Hk.
  rewrite E in Hk. by apply elem_of_nil in Hk.
Qed.


Lemma labelled_singleton label cols k :
  labelled [label] cols k = true ↔ cols !! k = Some label.
Proof.
  unfold labelled. destruct (cols !! k) as [l|]; [|done].
  rewrite bool_decide_eq_true, list_elem_of_singleton. split; congruence.
Qed.

Lemma insert_coerced (c : scalar -> scalar) j (r : list scalar) :
  <[j := c (default NaN (r !! j))]> r = alter c j r.
Proof.
  apply list_eq. intros k. destruct (decide (k = j)) as [->|Hk].
  - rewrite list_lookup_alter, decide_True by done.
    destruct (r !! j) as [v|] eqn:E.
    + rewrite list_lookup_insert_eq; [done|]. by eapply lookup_lt_Some.
    + simpl. rewrite list_insert_ge; [done|]. by apply lookup_ge_None.
  - by rewrite list_lookup_insert_ne, list_lookup_alter_ne.
Qed.

Lemma zip_insert_coerced (c : scalar -> scalar) j (rs : list (list scalar)) :
  zip_with (fun row v => <[j := v]> row) rs
    (c <$> ((fun r => default NaN (r !! j)) <$> rs))
  = alter c j <$> rs.
Proof.
  induction rs as [|r rs IH]; [done|].
  rewrite !fmap_cons. cbn [zip_with]. by rewrite insert_coerced, IH.
Qed.

Lemma setitem_to_datetime j df :
  setitem j (to_datetime parse (column_at j df)) df
  = {| columns := columns df;
       rows := alter (coerce parse (column_at j df)) j <$> rows df |}.
Proof.
  unfold setitem, to_datetime. f_equal.
  unfold column_at at 2. apply zip_insert_coerced.
Qed.

Lemma convert_timestamp_spec label df :
  (length (get_loc label (columns df)) ≤ 1)%nat ->
  convert_timestamp parse label df = inr (spec_timestamps parse [label] df).
Proof.
  intros Hone. unfold convert_timestamp, spec_timestamps.
  destruct df as [cols rs]; simpl in *.
  destruct (decide (label ∈ cols)) as [Hin|Hout].
  - destruct (get_loc label cols) as [|j [|j' js]] eqn:E;
      [by apply get_loc_present in Hin | | simpl in Hone; lia].
    rewrite setitem_to_datetime. simpl.
    do 2 f_equal. apply list_fmap_ext. intros _ r _.
    apply list_eq. intros k. rewrite list_lookup_imap.
    assert (Hj : forall k, cols !! k = Some label ↔ k = j).
    { intros k'. rewrite <- get_loc_lookup, E. apply list_elem_of_singleton. }
    destruct (decide (k = j)) as [->|Hk].
    + rewrite list_lookup_alter, decide_True by done.
      destruct (r !! j) as [v|]; [simpl|done].
      by rewrite (proj2 (labelled_singleton label cols j)) by by apply Hj.
    + rewrite list_lookup_alter_ne by done.
      destruct (r !! k) as [v|]; [simpl|done].
      destruct (labelled [label] cols k) eqn:El; [|done].
      by apply labelled_singleton, Hj in El.
  - do 2 f_equal. rewrite <- (list_fmap_id rs) at 1.
    apply list_fmap_ext. intros _ r _. unfold Datatypes.id. apply list_eq. intros k.
    rewrite list_lookup_imap. destruct (r !! k) as [v|]; [simpl|done].
    destruct (labelled [label] cols k) eqn:El; [|done].
    apply labelled_singleton in El. exfalso. apply Hout.
    by eapply list_elem_of_lookup_2.
Qed.


Lemma labelled_cons l ls cols k :
  labelled (l :: ls) cols k = labelled [l] cols k || labelled ls cols k.
Proof.
  unfold labelled. destruct (cols !! k) as [x|]; [|done].
  rewrite <- bool_decide_or. apply bool_decide_ext.
  rewrite elem_of_cons, list_elem_of_singleton. done.
Qed.

Lemma column_at_spec labels df k :
  labelled labels (columns df) k = false ->
  column_at k (spec_timestamps parse labels df) = column_at k df.
Proof.
  intros Hk. unfold column_at. simpl. rewrite <- list_fmap_compose.
  apply list_fmap_ext. intros _ r _. simpl. rewrite list_lookup_imap.
  destruct (r !! k) as [v|]; [simpl|done]. by rewrite Hk.
Qed.

Lemma spec_timestamps_compose a b df :
  a <> b ->
  spec_timestamps parse [b] (spec_timestamps parse [a] df)
  = spec_timestamps parse [a; b] df.
Proof.
  intros Hab. unfold spec_timestamps at 1 3. simpl. f_equal.
  rewrite <- list_fmap_compose. apply list_fmap_ext. intros _ r _. simpl.
  apply list_eq. intros k. rewrite !list_lookup_imap.
  destruct (r !! k) as [v|]; [simpl|done]. f_equal.
  rewrite (labelled_cons a [b]).
  destruct (labelled [a] (columns df) k) eqn:Ea; simpl.
  - destruct (labelled [b] (columns df) k) eqn:Eb; [|done].
    apply labelled_singleton in Ea, Eb. congruence.
  - destruct (labelled [b] (columns df) k) eqn:Eb; [|done].
    by rewrite column_at_spec.
Qed.

Lemma convert_timestamp_inr label df df' :
  convert_timestamp parse label df = inr df' ->
  (length (get_loc label (columns df)) ≤ 1)%nat.
Proof.
  unfold convert_timestamp.
  destruct (decide (label ∈ columns df)) as [Hin|Hout].
  - by destruct (get_loc label (columns df)) as [|j [|j' js]]; simpl;
      [lia|lia|].
  - rewrite get_loc_absent by done. simpl. lia.
Qed.

Lemma convert_both df df1 df2 :
  convert_timestamp parse "start" df = inr df1 ->
  convert_timestamp parse "end" df1 = inr df2 ->
  df2 = spec_timestamps parse ["start"; "end"] df.
Proof.
  intros H1 H2.
  pose proof (convert_timestamp_inr _ _ _ H1) as L1.
  pose proof (convert_timestamp_inr _ _ _ H2) as L2.
  rewrite convert_timestamp_spec in H1 by done. injection H1 as <-.
  rewrite convert_timestamp_spec in H2 by done. injection H2 as <-.
  by apply spec_timestamps_compose.
Qed.

Lemma foldl_insert_row cols argslist k b :
  foldl (insert_row cols) {| next_id := k; body := b |} argslist
  = {| next_id := k + Z.of_nat (length argslist);
       body := b ++ imap (fun i args =>
                 {| id := k + Z.of_nat i; cells := zip cols args |})
                 argslist |}.
Proof.
  revert k b. induction argslist as [|a t IH]; intros k b; simpl.
  - by rewrite Z.add_0_r, app_nil_r.
  - change (insert_row cols {| next_id := k; body := b |} a)
      with {| next_id := k + 1;
              body := b ++ [ {| id := k; cells := zip cols a |} ] |}.
    rewrite IH. f_equal; [lia|].
    rewrite <- app_assoc. simpl. rewrite Z.add_0_r. do 2 f_equal.
    apply imap_ext. intros i x _. unfold compose. f_equal. lia.
Qed.

Lemma final_db_loaded db0 dest n argslist :
  final_db db0
    (provisioned ++ [ExecuteBatch (InsertInto dest n) argslist; Commit; Close])
  = {| has_schema := true; wellbeing := Some (loaded dest argslist) |}.
Proof.
  unfold final_db, loaded. simpl. f_equal.
  by rewrite foldl_insert_row.
Qed.

Lemma final_db_uncommitted db0 t :
  t `prefix_of` provisioned -> final_db db0 t = db0.
Proof.
  intros [rest Hrest]. unfold provisioned in Hrest.
  do 5 (destruct t as [|? t]; [reflexivity|];
        simpl in Hrest; injection Hrest as <- Hrest).
  destruct t; [reflexivity | discriminate Hrest].
Qed.

Lemma empty_export_never_completes w :
  rows (csv w) = [] -> outcome (pipeline parse w) <> inr tt.
Proof.
  intros Hempty. rewrite pipeline_unfold.
  destruct (decide (status_code w ≠ 200%Z)); [discriminate|].
  destruct (convert_timestamp parse "start" (load_csv w)) as [?|df1] eqn:E1;
    [discriminate|].
  destruct (convert_timestamp parse "end" df1) as [?|df] eqn:E2;
    [discriminate|].
  pose proof (convert_both _ _ _ E1 E2) as ->. cbv zeta.
  destruct (decide (length _ = 0%nat)); [discriminate|].
  destruct (insert_stmt _); [|discriminate].
  cbn [spec_timestamps rows load_csv]. rewrite Hempty. discriminate.
Qed.

End Run.

(** ** The values of a row series *)





(** ** The courses of a run *)

Lemma convert_timestamp_inl parse label df e :
  convert_timestamp parse label df = inl e -> e = ValueError.
Proof.
  unfold convert_timestamp. repeat case_match; intros; by simplify_eq.
Qed.

(** The three shapes a run of the model can take. *)
Lemma pipeline_shapes parse w :
  (exists e, pipeline parse w = ([HttpGet], inl e)
             /\ (e = FetchFailed (status_code w) /\ status_code w ≠ 200%Z
                 \/ e = ValueError))
  \/ (exists e, pipeline parse w = (provisioned, inl e)
                /\ (e = NoExpectedColumns \/ e = IndexError
                    \/ e = DatabaseError))
  \/ (exists dest args,
        pipeline parse w
        = (provisioned
             ++ [ExecuteBatch (InsertInto dest (length dest)) args;
                 Commit; Close], inr tt)
        /\ dest = (entries (columns (load_csv w))).*2
        /\ args = values_list
                    (iterrows w
                       (spec_timestamps parse ["start"; "end"] (load_csv w)))
                    (existing_columns (columns (load_csv w)))
        /\ dest <> [] /\ args <> []
        /\ existsb (existsb is_NaT) args = false
        /\ accepts w (InsertInto dest (length dest)) args = true).
Proof.
  rewrite pipeline_unfold.
  destruct (decide (status_code w ≠ 200%Z)) as [Hbad|_].
  { left. eexists. split; [reflexivity|]. by left. }
  destruct (convert_timestamp parse "start" (load_csv w)) as [e|df1] eqn:E1.
  { left. eexists. split; [reflexivity|]. right.
    by eapply convert_timestamp_inl. }
  destruct (convert_timestamp parse "end" df1) as [e|df] eqn:E2.
  { left. eexists. split; [reflexivity|]. right.
    by eapply convert_timestamp_inl. }
  pose proof (convert_both parse _ _ _ E1 E2) as ->. cbv zeta.
  change (columns (spec_timestamps parse _ (load_csv w)))
    with (columns (load_csv w)).
  set (cols := columns (load_csv w)).
  destruct (decide (length (existing_columns cols) = 0%nat)) as [|Hne].
  { right. left. eexists. split; [reflexivity|]. by left. }
  rewrite insert_stmt_entries.
  assert (Hlen : length (existing_columns cols) = length (entries cols).*2).
  { by rewrite existing_columns_entries, !length_fmap. }
  rewrite Hlen.
  set (df := spec_timestamps parse ["start"; "end"] (load_csv w)).
  destruct (rows df) as [|r rs] eqn:Erows.
  { right. left. eexists. split; [reflexivity|]. right. by left. }
  destruct (existsb (existsb is_NaT) _) eqn:Enat.
  { right. left. eexists. split; [reflexivity|]. right. by right. }
  destruct (accepts w _ _) eqn:Eacc.
  - right. right. eexists _, _. split; [reflexivity|].
    split; [reflexivity|]. split; [reflexivity|].
    split; [|split; [|split; [exact Enat | exact Eacc]]].
    + intros Hnil. rewrite Hnil in Hlen. simpl in Hlen. lia.
    + unfold values_list, iterrows. cbn [rows]. by rewrite Erows.
  - right. left. eexists. split; [reflexivity|]. right. by right.
Qed.

(** ** Evaluations *)

Example clean_name_samples :
  clean_columns ["Start"; " Age Range "; "Stressed-or-Overwhelmed"; "Q&A"]
  = ["start"; "age_range"; "stressed_or_overwhelmed"; "qanda"].
Proof. reflexivity. Qed.

(** The projection follows the dictionary, not the export. *)
Example existing_columns_order :
  existing_columns ["gender"; "_uuid"; "end"; "start"]
  = ["start"; "end"; "gender"].
Proof. reflexivity. Qed.

Example insert_query_sample :
  insert_query ["start"; "gender"]
  = Some (nl +:+ "    INSERT INTO mental_health.mental_health_wellbeing "
             +:+ "(start_time, gender)" +:+
          nl +:+ "    VALUES (%s, %s)" +:+
          nl).
Proof. reflexivity. Qed.

(** Two columns that clean to [start] stop the run in the timestamp step. *)
Example duplicated_label_raises :
  pipeline iso8601
    {| status_code := 200;
       csv := {| columns := ["Start"; "start "];
                 rows := [[Text "2023-01-01T10:00:00"; Text "x"]] |};
       row_values := as_read;
       accepts := always |}
  = ([HttpGet], inl ValueError).
Proof. reflexivity. Qed.

(** A batch the server turns down leaves the stored database as it was. *)
Example refused_batch :
  let w := {| status_code := 200; csv := example_frame;
              row_values := as_read; accepts := fun _ _ => false |} in
  pipeline iso8601 w = (provisioned, inl DatabaseError)
  /\ final_db empty_db (trace (pipeline iso8601 w)) = empty_db.
Proof. split; reflexivity. Qed.

(** * The contract *)

(** C2. Cleaning a column name is exactly the transform the specification
    words: strip the surrounding whitespace, lowercase, then rewrite every
    space to an underscore, every ampersand to "and" and every hyphen to an
    underscore.  The three successive [replace] calls of the script agree
    with that single pass on every label, and relabelling keeps the columns
    one for one: none is added, none is lost, the rows are untouched. *)
Theorem clean_columns_refine_spec :
  (forall h, clean_name h = spec_normalize h)
  /\ (forall cols,
        clean_columns cols = spec_normalize <$> cols
        /\ length (clean_columns cols) = length cols
        /\ forall i, clean_columns cols !! i = spec_normalize <$> cols !! i)
  /\ (forall w,
        columns (load_csv w) = spec_normalize <$> columns (csv w)
        /\ rows (load_csv w) = rows (csv w)).
Proof.
  assert (Hname : forall h, clean_name h = spec_normalize h).
  { intros h. unfold clean_name, spec_normalize. by rewrite clean_chars_spec. }
  assert (Hcols : forall cols, clean_columns cols = spec_normalize <$> cols).
  { intros cols. unfold clean_columns. apply list_fmap_ext. auto. }
  split; [exact Hname|]. split.
  - intros cols. split; [apply Hcols|]. split.
    + unfold clean_columns. apply length_fmap.
    + intros i. by rewrite Hcols, list_lookup_fmap.
  - intros w. split; [apply Hcols | reflexivity].
Qed.

(** C3. Cleaning is idempotent: a label that has been cleaned is left as it
    is by a second cleaning. *)
Theorem clean_name_idempotent (h : string) :
  clean_name (clean_name h) = clean_name h.
Proof.
  unfold clean_name.
  by rewrite list_ascii_of_string_of_list_ascii, clean_chars_idem.
Qed.

(** C5. For every list of fetched labels the column list of the insert
    statement holds exactly the destination names the mapping gives to the
    source columns that are both keys of the mapping and fetched: a mapped
    column that was not fetched is left out, a fetched column the mapping
    does not know is ignored. *)
Theorem insert_columns_mapped_and_fetched (cols : list string) :
  exists dest,
    dest_columns (existing_columns cols) = Some dest
    /\ insert_stmt (existing_columns cols)
       = Some (InsertInto dest (length (existing_columns cols)))
    /\ insert_query (existing_columns cols)
       = Some (insert_text dest (length (existing_columns cols)))
    /\ (forall d, d ∈ dest <-> exists src, src ∈ cols /\ (src, d) ∈ COLUMN_MAP)
    /\ (forall src,
          src ∈ existing_columns cols <-> src ∈ keys COLUMN_MAP /\ src ∈ cols).
Proof.
  exists (entries cols).*2.
  pose proof (dest_columns_entries cols) as Hdest.
  split; [exact Hdest|].
  split; [unfold insert_stmt; by rewrite Hdest|].
  split; [unfold insert_query; by rewrite insert_stmt_entries|].
  split.
  - intros d. rewrite list_elem_of_fmap. split.
    + intros ([src d'] & -> & Hp). apply list_elem_of_filter in Hp as [Hc Hm].
      by exists src.
    + intros (src & Hc & Hm). exists (src, d). split; [done|].
      by apply list_elem_of_filter.
  - intros src. unfold existing_columns. rewrite list_elem_of_filter. tauto.
Qed.

(** C10. The destination columns of the insert statement come in the order
    of the mapping's declaration, whatever the order of the fetched labels;
    the statement carries one [%s] marker per destination column; every
    parameter tuple has that many components, the j-th being the row's value
    for the j-th projected source column. *)
Theorem insert_follows_mapping_order (df : DataFrame) :
  exists dest text,
    dest_columns (existing_columns (columns df)) = Some dest
    /\ insert_query (existing_columns (columns df)) = Some text
    /\ existing_columns (columns df) = (entries (columns df)).*1
    /\ dest = (entries (columns df)).*2
    /\ entries (columns df) `sublist_of` COLUMN_MAP
    /\ (forall cols',
          cols' ≡ₚ columns df ->
          existing_columns cols' = existing_columns (columns df))
    /\ count_placeholders text = length dest
    /\ Forall (fun args => length args = length dest)
         (values_list df (existing_columns (columns df)))
    /\ (forall i row,
          rows df !! i = Some row ->
          exists args,
            values_list df (existing_columns (columns df)) !! i = Some args
            /\ forall j,
                 args !! j
                 = series_get (columns df) row
                     <$> existing_columns (columns df) !! j).
Proof.
  pose proof (dest_columns_entries (columns df)) as Hdest.
  pose proof (existing_columns_entries (columns df)) as Hex.
  assert (Hlen : length (existing_columns (columns df))
                 = length (entries (columns df)).*2).
  { by rewrite Hex, !length_fmap. }
  exists (entries (columns df)).*2,
    (insert_text (entries (columns df)).*2
       (length (existing_columns (columns df)))).
  split; [exact Hdest|].
  split; [unfold insert_query; by rewrite insert_stmt_entries|].
  split; [exact Hex|]. split; [reflexivity|].
  split; [apply sublist_filter|].
  split.
  { intros cols' Hperm. unfold existing_columns. apply list_filter_iff.
    intros k. by rewrite Hperm. }
  split.
  { rewrite insert_text_markers; [exact Hlen|].
    apply (Forall_sublist_lookup_dest (columns df)). }
  split.
  { unfold values_list. apply Forall_fmap, Forall_forall. intros row _.
    simpl. by rewrite length_fmap. }
  intros i row Hrow. exists (series_get (columns df) row
                               <$> existing_columns (columns df)).
  split.
  - unfold values_list. by rewrite list_lookup_fmap, Hrow.
  - intros j. by rewrite list_lookup_fmap.
Qed.

(** The timestamp step on its own (lines 63-66).  In a frame where the
    labels [start] and [end] each name at most one column, both conversions
    return a frame, and that frame is the one the specification
    describes: the labels are kept, a cell is rewritten exactly
    when its column is labelled [start] or [end], it then becomes [NaT] when
    the parser rejects it and the parsed instant otherwise, and every other
    cell is the cell that was read. *)
Theorem timestamps_coerced
  (parse : list scalar -> scalar -> option Z) (df : DataFrame) :
  (length (get_loc "start" (columns df)) ≤ 1)%nat ->
  (length (get_loc "end" (columns df)) ≤ 1)%nat ->
  (exists df1,
     convert_timestamp parse "start" df = inr df1
     /\ convert_timestamp parse "end" df1
        = inr (spec_timestamps parse ["start"; "end"] df))
  /\ columns (spec_timestamps parse ["start"; "end"] df) = columns df
  /\ (forall i row k v,
        rows df !! i = Some row -> row !! k = Some v ->
        exists row',
          rows (spec_timestamps parse ["start"; "end"] df) !! i = Some row'
          /\ length row' = length row
          /\ row' !! k
             = Some (if decide (columns df !! k = Some "start"
                                \/ columns df !! k = Some "end")
                     then match parse (column_at k df) v with
                          | Some ns => Timestamp ns
                          | None => NaT
                          end
                     else v)).
Proof.
  intros Hstart Hend. split; [|split; [reflexivity|]].
  - exists (spec_timestamps parse ["start"] df). split.
    + by apply convert_timestamp_spec.
    + rewrite convert_timestamp_spec by done.
      by rewrite spec_timestamps_compose.
  - intros i row k v Hrow Hv.
    exists (imap (fun k v =>
              if labelled ["start"; "end"] (columns df) k
              then coerce parse (column_at k df) v else v) row).
    split; [|split].
    + simpl. by rewrite list_lookup_fmap, Hrow.
    + apply length_imap.
    + rewrite list_lookup_imap, Hv. simpl. f_equal.
      rewrite labelled_cons.
      destruct (decide (columns df !! k = Some "start"
                        \/ columns df !! k = Some "end")) as [[H|H]|H].
      * by rewrite (proj2 (labelled_singleton _ _ _) H).
      * by rewrite (proj2 (labelled_singleton "end" _ _) H), orb_true_r.
      * destruct (labelled ["start"] (columns df) k) eqn:E1;
          [apply labelled_singleton in E1; tauto|].
        destruct (labelled ["end"] (columns df) k) eqn:E2;
          [apply labelled_singleton in E2; tauto|].
        reflexivity.
Qed.

(** C6. When no key of the mapping is among the cleaned labels, the run
    ends in an exception: with status 200 it is the one of line 130, raised
    once the schema and the table have been (re)created and before any
    insert statement is built; whatever the status, the trace holds no
    batch and no commit, and the stored database is the one the run found. *)
Theorem no_mapped_column_aborts
  (parse : list scalar -> scalar -> option Z) (w : World) (db0 : Database) :
  existing_columns (clean_columns (columns (csv w))) = [] ->
  (exists e, outcome (pipeline parse w) = inl e)
  /\ (status_code w = 200%Z ->
      pipeline parse w = (provisioned, inl NoExpectedColumns))
  /\ trace (pipeline parse w) `prefix_of` provisioned
  /\ final_db db0 (trace (pipeline parse w)) = db0.
Proof.
  intros Hnone.
  assert (Habsent : forall label,
            label ∈ keys COLUMN_MAP ->
            convert_timestamp parse label (load_csv w) = inr (load_csv w)).
  { intros label Hkey. unfold convert_timestamp.
    rewrite decide_False; [done|]. intros Hin.
    assert (Hl : label ∈ existing_columns (clean_columns (columns (csv w)))).
    { unfold existing_columns. by apply list_elem_of_filter. }
    rewrite Hnone in Hl. by apply elem_of_nil in Hl. }
  assert (Hrun : pipeline parse w
                 = if decide (status_code w ≠ 200%Z)
                   then ([HttpGet], inl (FetchFailed (status_code w)))
                   else (provisioned, inl NoExpectedColumns)).
  { rewrite pipeline_unfold.
    destruct (decide (status_code w ≠ 200%Z)); [done|].
    rewrite (Habsent "start") by (by apply (bool_decide_unpack _)).
    rewrite (Habsent "end") by (by apply (bool_decide_unpack _)).
    cbv zeta. change (columns (load_csv w))
      with (clean_columns (columns (csv w))).
    by rewrite Hnone. }
  assert (Hpre : trace (pipeline parse w) `prefix_of` provisioned).
  { rewrite Hrun. destruct (decide (status_code w ≠ 200%Z)).
    - by exists [Connect; Execute CreateSchema; Execute DropTable;
                 Execute CreateTable].
    - by exists []. }
  split; [|split; [|split]].
  - rewrite Hrun. destruct (decide (status_code w ≠ 200%Z)); by eexists.
  - intros H200. rewrite Hrun. by rewrite decide_False by tauto.
  - exact Hpre.
  - by apply final_db_uncommitted.
Qed.

(** C7. The fetch is made once.  A status other than 200 ends the run with
    the exception of line 35 before the database is touched; with status 200
    that exception is not raised and, the timestamp step done, the run goes
    on to the connection and the schema statements. *)
Theorem fetch_gate
  (parse : list scalar -> scalar -> option Z) (w : World) :
  (exists rest,
     trace (pipeline parse w) = HttpGet :: rest
     /\ Forall (fun ev => is_fetch ev = false) rest)
  /\ (status_code w ≠ 200%Z ->
      pipeline parse w = ([HttpGet], inl (FetchFailed (status_code w)))
      /\ Forall (fun ev => touches_database ev = false)
           (trace (pipeline parse w))
      /\ forall db0, final_db db0 (trace (pipeline parse w)) = db0)
  /\ (status_code w = 200%Z ->
      (forall s, outcome (pipeline parse w) ≠ inl (FetchFailed s))
      /\ forall df1 df,
           convert_timestamp parse "start" (load_csv w) = inr df1 ->
           convert_timestamp parse "end" df1 = inr df ->
           provisioned `prefix_of` trace (pipeline parse w)).
Proof.
  rewrite pipeline_unfold.
  destruct (decide (status_code w ≠ 200%Z)) as [Hbad|Hok].
  { split; [|split].
    - exists []. by split.
    - intros _. split; [done|]. split; [by repeat constructor|done].
    - intros H200. by destruct Hbad. }
  destruct (convert_timestamp parse "start" (load_csv w)) as [e1|df1] eqn:E1.
  { split; [|split].
    - exists []. by split.
    - intros Hbad. tauto.
    - intros _. split; [|discriminate].
      unfold convert_timestamp in E1. repeat case_match; by simplify_eq. }
  destruct (convert_timestamp parse "end" df1) as [e2|df] eqn:E2.
  { split; [|split].
    - exists []. by split.
    - intros Hbad. tauto.
    - intros _. split.
      + unfold convert_timestamp in E2. repeat case_match; by simplify_eq.
      + intros ? ? [= <-]. by rewrite E2. }
  cbv zeta.
  assert (Htail : forall q vs,
            Forall (fun ev => is_fetch ev = false)
              [Connect; Execute CreateSchema; Execute DropTable;
               Execute CreateTable; ExecuteBatch q vs; Commit; Close]).
  { intros. by repeat constructor. }
  assert (Hhead : Forall (fun ev => is_fetch ev = false)
              [Connect; Execute CreateSchema; Execute DropTable;
               Execute CreateTable]).
  { by repeat constructor. }
  repeat case_match;
    (split; [|split];
     [ eexists; split; [reflexivity|]; first [exact Hhead | apply Htail]
     | intros Hbad; tauto
     | intros _; split; [done|]; intros ? ? _ _; simpl;
       first [by exists [] | by eexists [_; _; _]] ]).
Qed.


(** C9. The worked example.  For the header [Start;End;Age Range;Gender]
    and the one data row of the specification, the labels clean to [start],
    [end], [age_range], [gender]; the projection sends them to [start_time],
    [end_time], [age_range], [gender]; and, the two texts being read as the
    instants [t1] and [t2] and the batch accepted, the run completes having
    inserted exactly one row, keyed 1, with those two instants and the texts
    [18-24] and [Female] as they were read.  (The row holds text, so
    [df.iterrows()] hands it on as an object series, cell for cell.) *)
Theorem worked_example
  (parse : list scalar -> scalar -> option Z)
  (acc : statement -> list (list pyobj) -> bool)
  (db0 : Database) (t1 t2 : Z) :
  let w := {| status_code := 200; csv := example_frame;
              row_values := as_read; accepts := acc |} in
  let dest := ["start_time"; "end_time"; "age_range"; "gender"] in
  let args := [Scalar (Timestamp t1); Scalar (Timestamp t2);
               Scalar (Text "18-24"); Scalar (Text "Female")] in
  parse [Text "2023-01-01T10:00:00"] (Text "2023-01-01T10:00:00") = Some t1 ->
  parse [Text "2023-01-01T10:30:00"] (Text "2023-01-01T10:30:00") = Some t2 ->
  acc (InsertInto dest 4) [args] = true ->
  clean_columns (columns example_frame) = ["start"; "end"; "age_range"; "gender"]
  /\ dest_columns (existing_columns (clean_columns (columns example_frame)))
     = Some dest
  /\ pipeline parse w
     = (provisioned ++ [ExecuteBatch (InsertInto dest 4) [args]; Commit; Close],
        inr tt)
  /\ wellbeing (final_db db0 (trace (pipeline parse w)))
     = Some {| next_id := 2;
               body := [ {| id := 1; cells := zip dest args |} ] |}.
Proof.
  intros w dest args H1 H2 Hacc.
  assert (Hrun : pipeline parse w
     = (provisioned ++ [ExecuteBatch (InsertInto dest 4) [args]; Commit; Close],
        inr tt)).
  { rewrite pipeline_unfold.
    rewrite decide_False by (intros H; by apply H).
    assert (E1 : convert_timestamp parse "start" (load_csv w)
                 = inr {| columns := ["start"; "end"; "age_range"; "gender"];
                          rows := [[Timestamp t1; Text "2023-01-01T10:30:00";
                                    Text "18-24"; Text "Female"]] |}).
    { cbv. by rewrite H1. }
    rewrite E1.
    assert (E2 : convert_timestamp parse "end"
                   {| columns := ["start"; "end"; "age_range"; "gender"];
                      rows := [[Timestamp t1; Text "2023-01-01T10:30:00";
                                Text "18-24"; Text "Female"]] |}
                 = inr {| columns := ["start"; "end"; "age_range"; "gender"];
                          rows := [[Timestamp t1; Timestamp t2;
                                    Text "18-24"; Text "Female"]] |}).
    { cbv. by rewrite H2. }
    rewrite E2. cbv zeta.
    change (existing_columns _) with ["start"; "end"; "age_range"; "gender"].
    change (insert_stmt _) with (Some (InsertInto dest 4)).
    change (values_list _ _) with [args].
    cbv iota beta. simpl rows. cbv iota.
    change (existsb (existsb is_NaT) [args]) with false. cbv iota.
    change (accepts w) with acc. by rewrite Hacc. }
  split; [reflexivity|]. split; [reflexivity|]. split; [exact Hrun|].
  rewrite Hrun. unfold trace. cbn [fst]. by rewrite final_db_loaded.
Qed.

(** C1 (the run on an export without data rows).  With the header line
    alone the preview of line 145 raises [IndexError]: the run does not
    complete, the branch of line 152 is never reached, nothing is committed
    and the stored database is the one the run found. *)
Theorem header_only_run_raises
  (parse : list scalar -> scalar -> option Z) (db0 : Database) :
  pipeline parse header_only_world = (provisioned, inl IndexError)
  /\ existing_columns (columns (load_csv header_only_world))
     = ["start"; "end"; "age_range"; "gender"]
  /\ final_db db0 (trace (pipeline parse header_only_world)) = db0.
Proof.
  assert (Hrun : pipeline parse header_only_world
                 = (provisioned, inl IndexError)) by reflexivity.
  split; [exact Hrun|]. split; [reflexivity|]. by rewrite Hrun.
Qed.

(** C4 (an unparseable start value).  The timestamp step turns the text
    into [NaT] without raising, as [errors="coerce"] asks; the script then
    hands that [NaT] to the driver as a parameter of the batch, where it is
    refused: the run ends in a database error at line 154 and nothing is
    stored.  So an unparseable value does abort the run, and never reaches
    the table as a null. *)
Theorem unparseable_timestamp_aborts (db0 : Database) :
  convert_timestamp iso8601 "start" (load_csv unparseable_world)
  = inr {| columns := ["start"; "end"; "age_range"; "gender"];
           rows := [[NaT; Text "2023-01-01T10:30:00";
                     Text "18-24"; Text "Female"]] |}
  /\ values_list
       (iterrows unparseable_world
          (spec_timestamps iso8601 ["start"; "end"]
             (load_csv unparseable_world)))
       (existing_columns (columns (load_csv unparseable_world)))
     = [[Scalar NaT; Scalar (Timestamp 1672569000000000000);
         Scalar (Text "18-24"); Scalar (Text "Female")]]
  /\ pipeline iso8601 unparseable_world = (provisioned, inl DatabaseError)
  /\ final_db db0 (trace (pipeline iso8601 unparseable_world)) = db0.
Proof.
  assert (Hrun : pipeline iso8601 unparseable_world
                 = (provisioned, inl DatabaseError)) by reflexivity.
  split; [reflexivity|]. split; [reflexivity|]. split; [exact Hrun|].
  by rewrite Hrun.
Qed.

(** ** The contract at sample inputs *)

Lemma timestamps_coerced_witness :
  exists df1,
    convert_timestamp iso8601 "start" (load_csv example_world) = inr df1
    /\ convert_timestamp iso8601 "end" df1
       = inr (spec_timestamps iso8601 ["start"; "end"]
                (load_csv example_world)).
Proof.
  refine (proj1 (timestamps_coerced iso8601 (load_csv example_world) _ _));
    vm_compute; lia.
Defined.

Lemma no_mapped_column_aborts_witness :
  existing_columns (clean_columns (columns (csv unmapped_world))) = []
  /\ pipeline iso8601 unmapped_world = (provisioned, inl NoExpectedColumns).
Proof.
  split; [reflexivity|].
  refine (proj1 (proj2
            (no_mapped_column_aborts iso8601 unmapped_world empty_db _)) _);
    reflexivity.
Defined.

Lemma fetch_gate_witness :
  pipeline iso8601 refused_world = ([HttpGet], inl (FetchFailed 401))
  /\ forall s, outcome (pipeline iso8601 example_world) ≠ inl (FetchFailed s).
Proof.
  split.
  - refine (proj1 (proj1 (proj2 (fetch_gate iso8601 refused_world)) _)).
    discriminate.
  - refine (proj1 (proj2 (proj2 (fetch_gate iso8601 example_world)) _)).
    reflexivity.
Defined.


Lemma worked_example_witness :
  pipeline iso8601 example_world
  = (provisioned
       ++ [ExecuteBatch
             (InsertInto ["start_time"; "end_time"; "age_range"; "gender"] 4)
             [[Scalar (Timestamp 1672567200000000000);
               Scalar (Timestamp 1672569000000000000);
               Scalar (Text "18-24"); Scalar (Text "Female")]];
           Commit; Close],
     inr tt).
Proof.
  refine (proj1 (proj2 (proj2
            (worked_example iso8601 always empty_db
               1672567200000000000 1672569000000000000 _ _ _))));
    reflexivity.
Defined.

(** * Further properties of the script *)

(** ** Cleaned labels *)

Lemma subst_lower_plain c :
  forallb plain_char (spec_subst (Py.lower_char c)) = true.
Proof. each_char c. Qed.

Lemma plain_char_spec d :
  plain_char d = true ->
  d <> " "%char /\ d <> "&"%char /\ d <> "-"%char /\ Py.lower_char d = d.
Proof.
  unfold plain_char. rewrite !andb_true_iff, !negb_true_iff.
  intros [[[H1 H2] H3] H4].
  apply Ascii.eqb_neq in H1, H2, H3. apply Ascii.eqb_eq in H4. done.
Qed.

Lemma lstrip_spaces pre s :
  Forall (fun c => Py.isspace c = true) pre ->
  Py.lstrip (pre ++ s) = Py.lstrip s.
Proof.
  induction 1 as [|c pre Hc _ IH]; [done|]. simpl. by rewrite Hc.
Qed.

Lemma lstrip_nil_spaces s :
  Py.lstrip s = [] -> Forall (fun c => Py.isspace c = true) s.
Proof.
  induction s as [|c s IH]; [constructor|]. simpl.
  destruct (Py.isspace c) eqn:Ec; [|discriminate].
  intros E. constructor; [exact Ec | exact (IH E)].
Qed.

Lemma lstrip_cons_split s c t :
  Py.lstrip s = c :: t ->
  exists ws, s = ws ++ c :: t
             /\ Forall (fun c => Py.isspace c = true) ws
             /\ Py.isspace c = false.
Proof.
  induction s as [|d s IH]; [discriminate|]. simpl.
  destruct (Py.isspace d) eqn:Ed; intros E.
  - destruct (IH E) as (ws & Hs & Hws & Hc). exists (d :: ws).
    split; [by rewrite Hs|]. split; [by constructor | exact Hc].
  - injection E as E1 E2. subst d t. exists []. split; [reflexivity|].
    split; [constructor | exact Ed].
Qed.

Lemma Forall_rev_spaces (l : list ascii) :
  Forall (fun c => Py.isspace c = true) l ->
  Forall (fun c => Py.isspace c = true) (rev l).
Proof.
  induction 1 as [|c l Hc _ IH]; [constructor|]. simpl.
  apply Forall_app. split; [exact IH|]. by constructor.
Qed.

Lemma strip_padding pre s post :
  Forall (fun c => Py.isspace c = true) pre ->
  Forall (fun c => Py.isspace c = true) post ->
  Py.strip (pre ++ s ++ post) = Py.strip s.
Proof.
  intros Hpre Hpost. unfold Py.strip, Py.rstrip.
  rewrite (lstrip_spaces pre) by exact Hpre. f_equal.
  destruct (Py.lstrip s) as [|c t] eqn:E.
  - apply lstrip_nil_spaces in E.
    rewrite <- (app_nil_r (s ++ post)).
    rewrite (lstrip_spaces (s ++ post) []); [reflexivity|].
    apply Forall_app. by split.
  - destruct (lstrip_cons_split _ _ _ E) as (ws & Hs & Hws & Hc). subst s.
    rewrite <- app_assoc, (lstrip_spaces ws) by exact Hws.
    change ((c :: t) ++ post) with (c :: (t ++ post)).
    cbn [Py.lstrip]. rewrite Hc.
    change (c :: (t ++ post)) with ((c :: t) ++ post).
    rewrite rev_app_distr.
    by rewrite (lstrip_spaces (rev post)) by by apply Forall_rev_spaces.
Qed.

Lemma lstrip_lower x : Py.lstrip (Py.lower x) = Py.lower (Py.lstrip x).
Proof.
  induction x as [|c x IH]; [reflexivity|].
  change (Py.lower (c :: x)) with (Py.lower_char c :: Py.lower x).
  cbn [Py.lstrip]. rewrite isspace_lower.
  destruct (Py.isspace c); [exact IH | reflexivity].
Qed.

Lemma strip_lower s : Py.strip (Py.lower s) = Py.lower (Py.strip s).
Proof.
  unfold Py.strip, Py.rstrip. rewrite lstrip_lower.
  assert (Hrev : forall x, rev (Py.lower x) = Py.lower (rev x)).
  { intros x. unfold Py.lower. symmetry. apply map_rev. }
  by rewrite Hrev, lstrip_lower, Hrev.
Qed.

(** X7. A cleaned label has no whitespace at either end and holds no space,
    no ampersand, no hyphen and no capital letter. *)
Theorem clean_name_alphabet (h : string) :
  trimmed (chars (clean_name h))
  /\ Forall (fun c => c <> " "%char /\ c <> "&"%char /\ c <> "-"%char
                      /\ Py.lower_char c = c)
       (chars (clean_name h)).
Proof.
  unfold clean_name. rewrite list_ascii_of_string_of_list_ascii.
  rewrite clean_chars_spec. split.
  - apply trimmed_subst, trimmed_lower, strip_trimmed.
  - induction (Py.strip (chars h)) as [|c t IH]; [constructor|].
    cbn [map flat_map]. apply Forall_app. split; [|exact IH].
    apply Forall_forall. intros d Hd. apply plain_char_spec.
    pose proof (subst_lower_plain c) as Hall.
    rewrite forallb_forall in Hall. apply Hall. by apply list_elem_of_In.
Qed.

(** X8. Cleaning does not see the case of a label nor the whitespace around
    it: padding a label with whitespace on either side, or lowercasing it
    beforehand, gives the same cleaned label. *)
Theorem clean_ignores_case_and_padding (pre post : list ascii) (h : string) :
  Forall (fun c => Py.isspace c = true) pre ->
  Forall (fun c => Py.isspace c = true) post ->
  clean_name (string_of_list_ascii (pre ++ chars h ++ post)) = clean_name h
  /\ clean_name (string_of_list_ascii (Py.lower (chars h))) = clean_name h.
Proof.
  intros Hpre Hpost. unfold clean_name.
  rewrite !list_ascii_of_string_of_list_ascii. split; f_equal.
  - unfold clean_chars. by rewrite strip_padding.
  - unfold clean_chars. rewrite strip_lower.
    assert (Hidem : forall x, Py.lower (Py.lower x) = Py.lower x).
    { intros x. unfold Py.lower. rewrite map_map. apply map_ext.
      intros c. apply lower_char_idem. }
    by rewrite Hidem.
Qed.

(** ** The projection *)

Lemma filter_ext_in {A} (P Q : A -> Prop)
  `{!forall x, Decision (P x)} `{!forall x, Decision (Q x)} (l : list A) :
  (forall x, x ∈ l -> (P x <-> Q x)) -> filter P l = filter Q l.
Proof.
  induction l as [|x l IH]; intros Hext; [done|].
  rewrite !filter_cons.
  assert (Hx : P x <-> Q x) by (apply Hext; by left).
  rewrite IH by (intros y Hy; apply Hext; by right).
  destruct (decide (P x)), (decide (Q x)); tauto.
Qed.

Lemma COLUMN_MAP_dests_unique : NoDup COLUMN_MAP.*2.
Proof. apply (bool_decide_unpack _). by vm_compute. Qed.

Lemma COLUMN_MAP_keys_clean :
  Forall (fun k => clean_name k = k) (keys COLUMN_MAP).
Proof. by repeat constructor. Qed.

(** X9. The projection depends on which labels were fetched only: it never
    lists a source column twice, projecting its own result changes nothing,
    it is empty exactly when no key of the mapping was fetched, it never
    holds more than the fifteen keys, and fetching more labels can only add
    columns, keeping the order of those already there. *)
Theorem projection_algebra (cols : list string) :
  NoDup (existing_columns cols)
  /\ existing_columns (existing_columns cols) = existing_columns cols
  /\ (existing_columns cols = []
      <-> forall k, k ∈ keys COLUMN_MAP -> k ∉ cols)
  /\ (length (existing_columns cols) ≤ 15)%nat
  /\ forall cols',
       cols ⊆ cols' ->
       existing_columns cols `sublist_of` existing_columns cols'.
Proof.
  split; [apply NoDup_filter, COLUMN_MAP_keys_unique|].
  split.
  { unfold existing_columns at 1. apply filter_ext_in. intros k Hk.
    unfold existing_columns. rewrite list_elem_of_filter. tauto. }
  split.
  { unfold existing_columns. split.
    - intros Hnil k Hk Hin.
      assert (Hf : k ∈ filter (fun col => col ∈ cols) (keys COLUMN_MAP))
        by by apply list_elem_of_filter.
      rewrite Hnil in Hf. by apply elem_of_nil in Hf.
    - intros Hnone.
      destruct (filter _ (keys COLUMN_MAP)) as [|k t] eqn:E; [done|].
      assert (Hk : k ∈ filter (fun col => col ∈ cols) (keys COLUMN_MAP))
        by (rewrite E; by left).
      apply list_elem_of_filter in Hk as [Hin Hkey]. by destruct (Hnone k). }
  split.
  { change 15%nat with (length (keys COLUMN_MAP)).
    apply sublist_length, sublist_filter. }
  intros cols' Hsub.
  assert (E : existing_columns cols
              = filter (fun col => col ∈ cols) (existing_columns cols')).
  { unfold existing_columns. rewrite list_filter_filter.
    apply list_filter_iff. intros k. split; [|tauto].
    intros Hk. split; [done|]. by apply Hsub. }
  rewrite E. apply sublist_filter.
Qed.

(** X10. Whatever was fetched, the column list of the insert statement
    names each column once, names only columns of the table the script has
    just created, never names the generated key [id], and has one entry per
    projected source column. *)
Theorem insert_targets_created_table (cols : list string) :
  exists dest,
    dest_columns (existing_columns cols) = Some dest
    /\ NoDup dest
    /\ Forall (.∈ table_columns.*1) dest
    /\ ("id" ∉ dest)
    /\ length dest = length (existing_columns cols).
Proof.
  exists (entries cols).*2.
  assert (Hsub : (entries cols).*2 `sublist_of` COLUMN_MAP.*2)
    by apply fmap_sublist, sublist_filter.
  split; [apply dest_columns_entries|].
  split; [by eapply sublist_NoDup; [apply COLUMN_MAP_dests_unique|]|].
  split.
  { pose proof mapped_columns_exist as Hall. rewrite Forall_forall in Hall.
    apply Forall_forall. intros d Hd. apply Hall.
    by eapply elem_of_sublist. }
  split.
  { intros Hid. eapply elem_of_sublist in Hid; [|exact Hsub].
    revert Hid. apply (bool_decide_unpack _). by vm_compute. }
  by rewrite existing_columns_entries, !length_fmap.
Qed.

(** X11. Every key of the mapping is already in cleaned form, so a header
    that is written exactly as a key is projected. *)
Theorem mapped_headers_survive_cleaning (raw : list string) (k : string) :
  k ∈ keys COLUMN_MAP -> k ∈ raw ->
  clean_name k = k /\ k ∈ existing_columns (clean_columns raw).
Proof.
  intros Hkey Hraw.
  pose proof COLUMN_MAP_keys_clean as Hclean. rewrite Forall_forall in Hclean.
  split; [by apply Hclean|].
  unfold existing_columns. apply list_elem_of_filter. split; [|done].
  unfold clean_columns. apply list_elem_of_fmap. exists k.
  split; [symmetry; by apply Hclean | done].
Qed.

(** ** The run as a whole *)

Lemma final_db_fetch_only db0 : final_db db0 [HttpGet] = db0.
Proof. reflexivity. Qed.

Lemma final_db_provisioned db0 : final_db db0 provisioned = db0.
Proof. reflexivity. Qed.

(** X2. A run that ends in an exception commits nothing: the stored
    database is the one the run found, even when the table had already been
    dropped and recreated on the connection. *)
Theorem failed_run_commits_nothing
  (parse : list scalar -> scalar -> option Z) (w : World) (db0 : Database)
  (e : exn) :
  outcome (pipeline parse w) = inl e ->
  final_db db0 (trace (pipeline parse w)) = db0.
Proof.
  destruct (pipeline_shapes parse w)
    as [(e' & Hrun & _)|[(e' & Hrun & _)|(dest & args & Hrun & _)]];
    rewrite Hrun; [done|done|discriminate].
Qed.

(** X3. An export with a header line and no data row, fetched with status
    200 and holding at least one mapped column (its timestamp labels not
    duplicated), always ends in the [IndexError] of the preview, after the
    schema statements and before the test of line 151. *)
Theorem header_only_export_raises
  (parse : list scalar -> scalar -> option Z) (w : World) :
  rows (csv w) = [] ->
  status_code w = 200%Z ->
  existing_columns (clean_columns (columns (csv w))) <> [] ->
  (length (get_loc "start" (clean_columns (columns (csv w)))) ≤ 1)%nat ->
  (length (get_loc "end" (clean_columns (columns (csv w)))) ≤ 1)%nat ->
  pipeline parse w = (provisioned, inl IndexError).
Proof.
  intros Hrows H200 Hsome Hstart Hend. rewrite pipeline_unfold.
  rewrite decide_False by tauto.
  rewrite convert_timestamp_spec by done.
  rewrite convert_timestamp_spec by done.
  rewrite spec_timestamps_compose by done. cbv zeta.
  change (columns (spec_timestamps parse _ (load_csv w)))
    with (clean_columns (columns (csv w))).
  rewrite decide_False by (by destruct (existing_columns _)).
  rewrite insert_stmt_entries.
  cbn [spec_timestamps rows load_csv]. by rewrite Hrows.
Qed.

(** X4. A completed run replaces the table: what it leaves does not depend
    on what the database held before, the schema exists afterwards, and
    running the same load again on its own result changes nothing. *)
Theorem completed_run_replaces_table
  (parse : list scalar -> scalar -> option Z) (w : World)
  (db0 db1 : Database) :
  outcome (pipeline parse w) = inr tt ->
  final_db db0 (trace (pipeline parse w))
  = final_db db1 (trace (pipeline parse w))
  /\ has_schema (final_db db0 (trace (pipeline parse w))) = true
  /\ final_db (final_db db0 (trace (pipeline parse w)))
       (trace (pipeline parse w))
     = final_db db0 (trace (pipeline parse w)).
Proof.
  destruct (pipeline_shapes parse w)
    as [(e' & Hrun & _)|[(e' & Hrun & _)|(dest & args & Hrun & _)]];
    rewrite Hrun; [discriminate|discriminate|]. intros _.
  unfold trace. cbn [fst]. by rewrite !final_db_loaded.
Qed.

(** X5. Whenever a batch is executed it is well formed: the statement is
    an insert with one [%s] per listed column, it lists at least one column,
    the batch holds at least one tuple, every tuple has one component per
    column, the server took it, and the run then completes. *)
Theorem executed_batch_well_formed
  (parse : list scalar -> scalar -> option Z) (w : World)
  (stmt : statement) (args : list (list pyobj)) :
  ExecuteBatch stmt args ∈ trace (pipeline parse w) ->
  exists dest,
    stmt = InsertInto dest (length dest)
    /\ dest <> [] /\ args <> []
    /\ Forall (fun t => length t = length dest) args
    /\ count_placeholders (sql stmt) = length dest
    /\ accepts w stmt args = true
    /\ outcome (pipeline parse w) = inr tt.
Proof.
  destruct (pipeline_shapes parse w)
    as [(e' & Hrun & _)|[(e' & Hrun & _)
        |(dest & args' & Hrun & Hdest & Hargs & Hd & Ha & _ & Hacc)]];
    rewrite Hrun; unfold trace, provisioned; cbn [fst app].
  - intros Hin. by repeat (apply elem_of_cons in Hin as [Hin|Hin];
                           [discriminate|]); apply elem_of_nil in Hin.
  - intros Hin. by repeat (apply elem_of_cons in Hin as [Hin|Hin];
                           [discriminate|]); apply elem_of_nil in Hin.
  - intros Hin.
    do 5 (apply elem_of_cons in Hin as [Hin|Hin]; [discriminate|]).
    apply elem_of_cons in Hin as [Hin|Hin].
    + injection Hin as -> ->. exists dest.
      split; [done|]. split; [done|]. split; [done|].
      split; [|split; [|done]].
      * rewrite Hargs. unfold values_list.
        apply Forall_fmap, Forall_forall. intros row _. simpl.
        by rewrite length_fmap, Hdest, existing_columns_entries, !length_fmap.
      * change (sql (InsertInto dest (length dest)))
          with (insert_text dest (length dest)).
        rewrite insert_text_markers; [done|].
        rewrite Hdest. apply Forall_sublist_lookup_dest.
    + by repeat (apply elem_of_cons in Hin as [Hin|Hin]; [discriminate|]);
        apply elem_of_nil in Hin.
Qed.

(** ** The values of a row *)

Lemma series_filter_present key (cols : list string) (row : list scalar) :
  key ∈ cols -> (length cols ≤ length row)%nat ->
  filter (fun p => p.1 = key) (zip cols row) <> [].
Proof.
  revert row. induction cols as [|c cs IH]; intros row Hin Hlen.
  { by apply elem_of_nil in Hin. }
  destruct row as [|x xs]; [simpl in Hlen; lia|]. simpl in *.
  rewrite filter_cons. destruct (decide ((c, x).1 = key)) as [|Hne]; [done|].
  apply IH; [|lia]. apply elem_of_cons in Hin as [->|Hin]; [|done].
  by destruct Hne.
Qed.

(** X12. A projected column is never read as missing: when every row is as
    long as the header, no component of any parameter tuple is the default
    [None] of [row.get]. *)
Theorem projected_values_never_none (df : DataFrame) :
  Forall (fun row => (length (columns df) ≤ length row)%nat) (rows df) ->
  Forall (Forall (fun v => v <> PyNone))
    (values_list df (existing_columns (columns df))).
Proof.
  intros Hwf. unfold values_list. apply Forall_fmap.
  eapply Forall_impl; [exact Hwf|]. intros row Hlen. simpl.
  apply Forall_fmap, Forall_forall. intros key Hkey. simpl.
  apply list_elem_of_filter in Hkey as [Hin _].
  pose proof (series_filter_present key _ row Hin Hlen) as Hne.
  unfold series_get.
  destruct (filter _ (zip (columns df) row)) as [|p [|q ps]]; done.
Qed.


(** X13. The script commits and closes at its very end and nowhere else: a
    commit is in the trace exactly when the run completes, and so is the
    closing of the connection; a run stopped by an exception leaves the
    connection to the end of the process. *)
Theorem commit_and_close_only_on_success
  (parse : list scalar -> scalar -> option Z) (w : World) :
  (Commit ∈ trace (pipeline parse w) <-> outcome (pipeline parse w) = inr tt)
  /\ (Close ∈ trace (pipeline parse w)
      <-> outcome (pipeline parse w) = inr tt).
Proof.
  destruct (pipeline_shapes parse w)
    as [(e' & Hrun & _)|[(e' & Hrun & _)|(dest & args & Hrun & _)]];
    rewrite Hrun; unfold trace, outcome, provisioned; cbn [fst snd app].
  - split; (split; [intros Hin|discriminate]);
      by repeat (apply elem_of_cons in Hin as [Hin|Hin]; [discriminate|]);
        apply elem_of_nil in Hin.
  - split; (split; [intros Hin|discriminate]);
      by repeat (apply elem_of_cons in Hin as [Hin|Hin]; [discriminate|]);
        apply elem_of_nil in Hin.
  - split; (split; [done|intros _]).
    + by apply list_elem_of_lookup_2 with 6%nat.
    + by apply list_elem_of_lookup_2 with 7%nat.
Qed.

(** ** The further properties at sample inputs *)

Lemma failed_run_commits_nothing_witness :
  outcome (pipeline iso8601 unmapped_world) = inl NoExpectedColumns
  /\ final_db empty_db (trace (pipeline iso8601 unmapped_world)) = empty_db.
Proof.
  split; [reflexivity|].
  apply (failed_run_commits_nothing iso8601 unmapped_world empty_db
           NoExpectedColumns).
  reflexivity.
Defined.

Lemma header_only_export_raises_witness :
  pipeline iso8601 header_only_world = (provisioned, inl IndexError).
Proof.
  apply (header_only_export_raises iso8601 header_only_world).
  - reflexivity.
  - reflexivity.
  - vm_compute. discriminate.
  - vm_compute. lia.
  - vm_compute. lia.
Defined.

Lemma completed_run_replaces_table_witness :
  final_db empty_db (trace (pipeline iso8601 example_world))
  = final_db {| has_schema := true;
                wellbeing := Some {| next_id := 8; body := [] |} |}
      (trace (pipeline iso8601 example_world)).
Proof.
  refine (proj1 (completed_run_replaces_table iso8601 example_world
                   empty_db _ _)).
  reflexivity.
Defined.

Lemma executed_batch_well_formed_witness :
  exists dest,
    InsertInto ["start_time"; "end_time"; "age_range"; "gender"] 4
    = InsertInto dest (length dest)
    /\ dest <> [].
Proof.
  destruct (executed_batch_well_formed iso8601 example_world
              (InsertInto ["start_time"; "end_time"; "age_range"; "gender"] 4)
              [[Scalar (Timestamp 1672567200000000000);
                Scalar (Timestamp 1672569000000000000);
                Scalar (Text "18-24"); Scalar (Text "Female")]])
    as (dest & Hstmt & Hdest & _).
  - apply list_elem_of_lookup_2 with 5%nat. reflexivity.
  - exists dest. split; [exact Hstmt | exact Hdest].
Defined.

Lemma clean_ignores_case_and_padding_witness :
  clean_name "  Age Range " = clean_name "Age Range"
  /\ clean_name "age range" = clean_name "Age Range".
Proof.
  apply (clean_ignores_case_and_padding
           (chars "  ") (chars " ") "Age Range");
    repeat constructor.
Defined.

Lemma mapped_headers_survive_cleaning_witness :
  clean_name "gender" = "gender"
  /\ "gender" ∈ existing_columns (clean_columns ["Other"; "gender"]).
Proof.
  apply (mapped_headers_survive_cleaning ["Other"; "gender"] "gender").
  - apply list_elem_of_lookup_2 with 3%nat. reflexivity.
  - apply list_elem_of_lookup_2 with 1%nat. reflexivity.
Defined.

Lemma projected_values_never_none_witness :
  Forall (Forall (fun v => v <> PyNone))
    (values_list (load_csv example_world)
       (existing_columns (columns (load_csv example_world)))).
Proof.
  apply (projected_values_never_none (load_csv example_world)).
  repeat constructor.
Defined.
